(** * A shallow embedding of JUCE's [ComboBox] (juce_ComboBox.cpp)

    The model covers the item store, the selection state, the embedded
    label's text, the pending-separator flag, the popup-menu builder and
    the coalesced async-update flag.  Rendering, focus, mouse plumbing and
    the look-and-feel are not modelled.  Release builds are modelled:
    [jassert] is a no-op. *)

From Stdlib Require Import ZArith List String Bool Lia.
Import ListNotations.
Open Scope string_scope.
Open Scope list_scope.
Open Scope Z_scope.

(** ** Items *)

(** [ComboBox::ItemInfo]: [{ name, itemId, isEnabled, isHeading }]. *)
Record ItemInfo := mkItemInfo {
  name : string;
  itemId : Z;
  isEnabled : bool;
  isHeading : bool
}.

(** [String::isEmpty]. *)
Definition isEmpty (s : string) : bool := String.eqb s "".

(** [ItemInfo::isSeparator]: [name.isEmpty()]. *)
Definition isSeparator (it : ItemInfo) : bool := isEmpty (name it).

(** [ItemInfo::isRealItem]: [! (isHeading || name.isEmpty())]. *)
Definition isRealItem (it : ItemInfo) : bool :=
  negb (isHeading it || isEmpty (name it)).

(** The item [addItem] / [addSectionHeading] append for a pending
    separator: default (empty) name, id 0, disabled, not a heading. *)
Definition separatorItem : ItemInfo := mkItemInfo "" 0 false false.

(** ** Lookups on the item store ([OwnedArray<ItemInfo> items]) *)

(** [getItemForId]: reverse scan, so the last item with the id wins;
    id 0 is rejected. *)
Definition getItemForId (items : list ItemInfo) (id : Z) : option ItemInfo :=
  if negb (id =? 0)
  then find (fun it => itemId it =? id) (rev items)
  else None.

(** [getItemForIndex]: [n] counts the real items seen so far. *)
Fixpoint getItemForIndex_from (items : list ItemInfo) (index n : Z)
  : option ItemInfo :=
  match items with
  | [] => None
  | it :: rest =>
      if isRealItem it
      then if n =? index then Some it else getItemForIndex_from rest index (n + 1)
      else getItemForIndex_from rest index n
  end.

Definition getItemForIndex (items : list ItemInfo) (index : Z) : option ItemInfo :=
  getItemForIndex_from items index 0.

(** [getNumItems]: counts the real items. *)
Fixpoint getNumItems (items : list ItemInfo) : Z :=
  match items with
  | [] => 0
  | it :: rest => (if isRealItem it then 1 else 0) + getNumItems rest
  end.

(** [getItemText]: [String::empty] when there is no such item. *)
Definition getItemText (items : list ItemInfo) (index : Z) : string :=
  match getItemForIndex items index with
  | Some it => name it
  | None => ""
  end.

(** [getItemId]: 0 when there is no such item. *)
Definition getItemId (items : list ItemInfo) (index : Z) : Z :=
  match getItemForIndex items index with
  | Some it => itemId it
  | None => 0
  end.

(** [indexOfItemId]: index among the real items of the first real item
    with the id, -1 when there is none. *)
Fixpoint indexOfItemId_from (items : list ItemInfo) (id n : Z) : Z :=
  match items with
  | [] => -1
  | it :: rest =>
      if isRealItem it
      then if itemId it =? id then n else indexOfItemId_from rest id (n + 1)
      else indexOfItemId_from rest id n
  end.

Definition indexOfItemId (items : list ItemInfo) (id : Z) : Z :=
  indexOfItemId_from items id 0.

(** Mutating the item [getItemForId] returns (through its pointer):
    the last item with the id; nothing when id is 0 or absent. *)
Fixpoint update_first (p : ItemInfo -> bool) (f : ItemInfo -> ItemInfo)
    (l : list ItemInfo) : list ItemInfo :=
  match l with
  | [] => []
  | x :: rest => if p x then f x :: rest else x :: update_first p f rest
  end.

Definition updateItemForId (items : list ItemInfo) (id : Z)
    (f : ItemInfo -> ItemInfo) : list ItemInfo :=
  if negb (id =? 0)
  then rev (update_first (fun it => itemId it =? id) f (rev items))
  else items.

(** ** Widget state *)

(** The fields of [ComboBox] the claims depend on.  [labelText] and
    [labelEditable] are the embedded [Label]'s; [updatePending] is the
    [AsyncUpdater]'s flag; [currentId] is the [Value] and
    [lastCurrentId] its shadow copy. *)
Record ComboBox := mkComboBox {
  items : list ItemInfo;
  separatorPending : bool;
  currentId : Z;
  lastCurrentId : Z;
  labelText : string;
  labelEditable : bool;
  menuActive : bool;
  updatePending : bool;
  noChoicesMessage : string
}.

(** The constructor: empty store, ids 0, an empty non-editable label,
    [noChoicesMessage = TRANS ("(no choices)")]. *)
Definition init : ComboBox :=
  mkComboBox [] false 0 0 "" false false false "(no choices)".

Definition set_items (l : list ItemInfo) (s : ComboBox) : ComboBox :=
  mkComboBox l (separatorPending s) (currentId s) (lastCurrentId s)
    (labelText s) (labelEditable s) (menuActive s) (updatePending s)
    (noChoicesMessage s).

Definition set_separatorPending (b : bool) (s : ComboBox) : ComboBox :=
  mkComboBox (items s) b (currentId s) (lastCurrentId s)
    (labelText s) (labelEditable s) (menuActive s) (updatePending s)
    (noChoicesMessage s).

Definition set_ids (cur last : Z) (s : ComboBox) : ComboBox :=
  mkComboBox (items s) (separatorPending s) cur last
    (labelText s) (labelEditable s) (menuActive s) (updatePending s)
    (noChoicesMessage s).

Definition set_labelText (t : string) (s : ComboBox) : ComboBox :=
  mkComboBox (items s) (separatorPending s) (currentId s) (lastCurrentId s)
    t (labelEditable s) (menuActive s) (updatePending s)
    (noChoicesMessage s).

Definition set_labelEditable (b : bool) (s : ComboBox) : ComboBox :=
  mkComboBox (items s) (separatorPending s) (currentId s) (lastCurrentId s)
    (labelText s) b (menuActive s) (updatePending s)
    (noChoicesMessage s).

Definition set_menuActive (b : bool) (s : ComboBox) : ComboBox :=
  mkComboBox (items s) (separatorPending s) (currentId s) (lastCurrentId s)
    (labelText s) (labelEditable s) b (updatePending s)
    (noChoicesMessage s).

Definition set_updatePending (b : bool) (s : ComboBox) : ComboBox :=
  mkComboBox (items s) (separatorPending s) (currentId s) (lastCurrentId s)
    (labelText s) (labelEditable s) (menuActive s) b
    (noChoicesMessage s).

(** [triggerAsyncUpdate] unless [dontSendChangeMessage]. *)
Definition triggerUnless (dontSend : bool) (s : ComboBox) : ComboBox :=
  if dontSend then s else set_updatePending true s.

(** ** Item-store operations *)

(** [addItem]: the [jassert]s are no-ops in release; only empty text and
    id 0 are refused by the [if]. *)
Definition addItem (newItemText : string) (newItemId : Z) (s : ComboBox)
  : ComboBox :=
  if negb (isEmpty newItemText) && negb (newItemId =? 0)
  then
    let s1 :=
      if separatorPending s
      then set_items (items s ++ [separatorItem]) (set_separatorPending false s)
      else s in
    set_items (items s1 ++ [mkItemInfo newItemText newItemId true false]) s1
  else s.

(** [addSeparator]: [separatorPending = (items.size() > 0)]. *)
Definition addSeparator (s : ComboBox) : ComboBox :=
  set_separatorPending (Nat.ltb 0 (List.length (items s))) s.

(** [addSectionHeading]: the heading gets id 0. *)
Definition addSectionHeading (headingName : string) (s : ComboBox) : ComboBox :=
  if negb (isEmpty headingName)
  then
    let s1 :=
      if separatorPending s
      then set_items (items s ++ [separatorItem]) (set_separatorPending false s)
      else s in
    set_items (items s1 ++ [mkItemInfo headingName 0 true true]) s1
  else s.

(** [setItemEnabled]. *)
Definition setItemEnabled (id : Z) (shouldBeEnabled : bool) (s : ComboBox)
  : ComboBox :=
  set_items
    (updateItemForId (items s) id
       (fun it => mkItemInfo (name it) (itemId it) shouldBeEnabled (isHeading it)))
    s.

(** [changeItemText]: no check on [newText]. *)
Definition changeItemText (id : Z) (newText : string) (s : ComboBox) : ComboBox :=
  set_items
    (updateItemForId (items s) id
       (fun it => mkItemInfo newText (itemId it) (isEnabled it) (isHeading it)))
    s.

(** ** Selection *)

(** [getSelectedId]. *)
Definition getSelectedId (s : ComboBox) : Z :=
  match getItemForId (items s) (currentId s) with
  | Some it => if String.eqb (labelText s) (name it) then itemId it else 0
  | None => 0
  end.

(** [setSelectedId].  Assigning [currentId] notifies [valueChanged]
    asynchronously; it finds [lastCurrentId] already equal and does
    nothing, so it is not modelled. *)
Definition setSelectedId (newItemId : Z) (dontSend : bool) (s : ComboBox)
  : ComboBox :=
  let newItemText :=
    match getItemForId (items s) newItemId with
    | Some it => name it
    | None => ""
    end in
  if negb (lastCurrentId s =? newItemId) || negb (String.eqb (labelText s) newItemText)
  then set_ids newItemId newItemId
         (set_labelText newItemText (triggerUnless dontSend s))
  else s.

(** [setSelectedItemIndex]. *)
Definition setSelectedItemIndex (index : Z) (dontSend : bool) (s : ComboBox)
  : ComboBox :=
  setSelectedId (getItemId (items s) index) dontSend s.

(** [getSelectedItemIndex]. *)
Definition getSelectedItemIndex (s : ComboBox) : Z :=
  let index := indexOfItemId (items s) (currentId s) in
  if negb (String.eqb (labelText s) (getItemText (items s) index))
  then -1
  else index.

(** [getText]. *)
Definition getText (s : ComboBox) : string := labelText s.

(** [setText]: reverse scan for a real item with that name. *)
Definition setText (newText : string) (dontSend : bool) (s : ComboBox)
  : ComboBox :=
  match find (fun it => isRealItem it && String.eqb (name it) newText)
             (rev (items s)) with
  | Some it => setSelectedId (itemId it) dontSend s
  | None =>
      let s1 := set_ids 0 0 s in
      if negb (String.eqb (labelText s1) newText)
      then triggerUnless dontSend (set_labelText newText s1)
      else s1
  end.

(** [clear]. *)
Definition clear (dontSend : bool) (s : ComboBox) : ComboBox :=
  let s1 := set_separatorPending false (set_items [] s) in
  if negb (labelEditable s1) then setSelectedItemIndex (-1) dontSend s1 else s1.

(** [setEditableText]. *)
Definition setEditableText (isEditable : bool) (s : ComboBox) : ComboBox :=
  set_labelEditable isEditable s.

(** ** Popup menu *)

(** The entries [showPopup] adds to the [PopupMenu]. *)
Inductive MenuEntry :=
| MenuSeparator
| MenuSectionHeader (text : string)
| MenuItem (id : Z) (text : string) (enabled ticked : bool).

Fixpoint menuEntries (selectedId : Z) (l : list ItemInfo) : list MenuEntry :=
  match l with
  | [] => []
  | it :: rest =>
      (if isSeparator it then MenuSeparator
       else if isHeading it then MenuSectionHeader (name it)
       else MenuItem (itemId it) (name it) (isEnabled it) (itemId it =? selectedId))
      :: menuEntries selectedId rest
  end.

(** [showPopup]: the menu built (if any) and the new state. *)
Definition showPopup (s : ComboBox) : option (list MenuEntry) * ComboBox :=
  if negb (menuActive s)
  then
    let selectedId := getSelectedId s in
    let menu := menuEntries selectedId (items s) ++
                (if Nat.eqb (List.length (items s)) 0
                 then [MenuItem 1 (noChoicesMessage s) false false]
                 else []) in
    (Some menu, set_menuActive true s)
  else (None, s).

(** [Callback::modalStateFinished]. *)
Definition modalStateFinished (returnValue : Z) (s : ComboBox) : ComboBox :=
  let s1 := set_menuActive false s in
  if negb (returnValue =? 0) then setSelectedId returnValue false s1 else s1.

(** [valueChanged]: the [Value] listener on [currentId]; resyncs when
    [currentId] was changed from outside. *)
Definition valueChanged (s : ComboBox) : ComboBox :=
  if negb (lastCurrentId s =? currentId s)
  then setSelectedId (currentId s) false s
  else s.

(** [setTextWhenNoChoicesAvailable]. *)
Definition setTextWhenNoChoicesAvailable (newMessage : string) (s : ComboBox)
  : ComboBox :=
  mkComboBox (items s) (separatorPending s) (currentId s) (lastCurrentId s)
    (labelText s) (labelEditable s) (menuActive s) (updatePending s) newMessage.

(** The key codes [keyPressed] tests. *)
Inductive KeyCode := KeyUp | KeyLeft | KeyDown | KeyRight | KeyReturn | KeyOther.

(** [keyPressed]: whether the key was used, and the new state.
    [setSelectedItemIndex] is called with its default
    [dontSendChangeMessage = false]. *)
Definition keyPressed (key : KeyCode) (s : ComboBox) : bool * ComboBox :=
  match key with
  | KeyUp | KeyLeft =>
      (true, setSelectedItemIndex (Z.max 0 (getSelectedItemIndex s - 1)) false s)
  | KeyDown | KeyRight =>
      (true, setSelectedItemIndex
               (Z.min (getSelectedItemIndex s + 1) (getNumItems (items s) - 1)) false s)
  | KeyReturn => (true, snd (showPopup s))
  | KeyOther => (false, s)
  end.

(** ** Reachable states *)

(** Public calls and host events that change the state.  [UserEditsLabel]
    is typing in an editable label ([labelTextChanged]).  [currentId] is a
    [Value] the box listens to: other code holding it (through
    [getSelectedIdAsValue] or [Value::referTo]) may set it without going
    through [setSelectedId] ([WriteSelectedIdValue]); the listener's
    [valueChanged] then runs later, from the message loop ([ValueChanged]). *)
Inductive Op :=
| OpAddItem (t : string) (id : Z)
| OpAddSeparator
| OpAddSectionHeading (t : string)
| OpSetItemEnabled (id : Z) (b : bool)
| OpChangeItemText (id : Z) (t : string)
| OpClear (dontSend : bool)
| OpSetSelectedId (id : Z) (dontSend : bool)
| OpSetSelectedItemIndex (index : Z) (dontSend : bool)
| OpSetText (t : string) (dontSend : bool)
| OpSetEditableText (b : bool)
| OpUserEditsLabel (t : string)
| OpShowPopup
| OpModalStateFinished (returnValue : Z)
| OpHandleAsyncUpdate
| OpWriteSelectedIdValue (id : Z)
| OpValueChanged.

Definition step (o : Op) (s : ComboBox) : ComboBox :=
  match o with
  | OpAddItem t id => addItem t id s
  | OpAddSeparator => addSeparator s
  | OpAddSectionHeading t => addSectionHeading t s
  | OpSetItemEnabled id b => setItemEnabled id b s
  | OpChangeItemText id t => changeItemText id t s
  | OpClear d => clear d s
  | OpSetSelectedId id d => setSelectedId id d s
  | OpSetSelectedItemIndex i d => setSelectedItemIndex i d s
  | OpSetText t d => setText t d s
  | OpSetEditableText b => setEditableText b s
  | OpUserEditsLabel t =>
      if labelEditable s then set_updatePending true (set_labelText t s) else s
  | OpShowPopup => snd (showPopup s)
  | OpModalStateFinished r => modalStateFinished r s
  | OpHandleAsyncUpdate => set_updatePending false s
  | OpWriteSelectedIdValue id => set_ids id (lastCurrentId s) s
  | OpValueChanged => valueChanged s
  end.

Fixpoint run (s : ComboBox) (ops : list Op) : ComboBox :=
  match ops with
  | [] => s
  | o :: rest => run (step o s) rest
  end.

Definition reachable (s : ComboBox) : Prop := exists ops, run init ops = s.

(** ** Sanity checks on the spec's example *)

Definition example_box : ComboBox :=
  run init [OpAddItem "Red" 1; OpAddItem "Green" 2; OpAddSeparator;
            OpAddItem "Blue" 3].

(** ** Definitions used by the statements *)

(** Non-zero ids of the store are pairwise distinct (as [addItem]'s
    assertion asks). *)
Definition UniqueIds (l : list ItemInfo) : Prop :=
  NoDup (map itemId (filter (fun it => negb (itemId it =? 0)) l)).


(** Number of ticked entries of a menu. *)
Fixpoint tickedCount (menu : list MenuEntry) : nat :=
  match menu with
  | [] => 0
  | MenuItem _ _ _ true :: rest => S (tickedCount rest)
  | _ :: rest => tickedCount rest
  end.

(** What every entry of the store satisfies: a heading has id 0 and a
    name; a non-heading entry with id 0 is an (empty-named) separator. *)
Definition ItemOk (it : ItemInfo) : Prop :=
  (isHeading it = true -> itemId it = 0 /\ isEmpty (name it) = false) /\
  (isHeading it = false -> itemId it = 0 -> isEmpty (name it) = true).

(** The invariant of the store.  ([currentId] and [lastCurrentId] agree
    only until [currentId] is written from outside, see [Op].) *)
Definition Inv (s : ComboBox) : Prop := Forall ItemOk (items s).




(** C4 as written: each misuse, a duplicate id included, leaves the
    store unchanged. *)
Definition C4_duplicate_is_noop : Prop :=
  forall s t id, reachable s ->
    (exists it, In it (items s) /\ itemId it = id) ->
    items (addItem t id s) = items s.

Inductive BuildOp :=
| BAddItem (t : string) (id : Z)
| BAddSeparator
| BAddSectionHeading (t : string).

Definition buildStep (b : BuildOp) : Op :=
  match b with
  | BAddItem t id => OpAddItem t id
  | BAddSeparator => OpAddSeparator
  | BAddSectionHeading t => OpAddSectionHeading t
  end.

Fixpoint addedIds (bs : list BuildOp) : list Z :=
  match bs with
  | [] => []
  | BAddItem _ id :: rest => id :: addedIds rest
  | _ :: rest => addedIds rest
  end.

Definition validAdd (b : BuildOp) : Prop :=
  match b with
  | BAddItem t id => t <> "" /\ id <> 0
  | _ => True
  end.

Definition example_build : list BuildOp :=
  [BAddSectionHeading "Warm"; BAddItem "Red" 1; BAddItem "Green" 2;
   BAddSeparator; BAddItem "Blue" 3].

Ltac destruct_ifs :=
  repeat match goal with |- context [if ?b then _ else _] => destruct b end.

(** C7 as written: the reported index is that of an item whose name is
    the label's text. *)
(** C2 as written, in its "if" direction: after [setSelectedId x], with
    [x] the id of an item of the store whose name the label shows,
    [getSelectedId] returns [x]. *)
Definition C2_as_stated : Prop :=
  forall s x d, reachable s -> x <> 0 ->
    (exists it, In it (items s) /\ itemId it = x /\
                labelText (setSelectedId x d s) = name it) ->
    getSelectedId (setSelectedId x d s) = x.

(** Item 1 selected, then [currentId] set to 2 from outside, before the
    asynchronous [valueChanged] has run. *)
Definition diverged_box : ComboBox :=
  run init [OpAddItem "a" 1; OpAddItem "b" 2; OpSetSelectedId 1 false;
            OpWriteSelectedIdValue 2].

Definition C7_as_stated : Prop :=
  forall s k it, reachable s -> getItemForIndex (items s) k = Some it ->
    name it = getText s -> getSelectedItemIndex s = k.

Definition renamed_box : ComboBox :=
  run init [OpAddItem "a" 1; OpAddItem "b" 2; OpSetSelectedId 1 false;
            OpChangeItemText 2 "a"; OpChangeItemText 1 "z"].


Definition leading_sep_box : ComboBox :=
  run init [OpAddItem "a" 1; OpChangeItemText 1 ""].

Definition adjacent_sep_box : ComboBox :=
  run init [OpAddItem "a" 1; OpAddSeparator; OpAddItem "b" 2; OpChangeItemText 2 ""].

Definition renamed_selected_box : ComboBox :=
  run init [OpAddItem "a" 1; OpChangeItemText 1 ""; OpSetSelectedId 1 false].

(** ** The spec's example, evaluated *)

Example example_numItems : getNumItems (items example_box) = 3.
Proof. reflexivity. Qed.

Example example_itemText : getItemText (items example_box) 1 = "Green".
Proof. reflexivity. Qed.

Example example_popup :
  fst (showPopup example_box) =
  Some [MenuItem 1 "Red" true false; MenuItem 2 "Green" true false;
        MenuSeparator; MenuItem 3 "Blue" true false].
Proof. reflexivity. Qed.

(** ** Basic facts *)


Lemma isEmpty_false (t : string) : isEmpty t = false <-> t <> "".
Proof. unfold isEmpty. apply String.eqb_neq. Qed.

Lemma set_items_same (s : ComboBox) : set_items (items s) s = s.
Proof. destruct s; reflexivity. Qed.

Lemma in_update_first p f (l : list ItemInfo) it :
  In it (update_first p f l) ->
  In it l \/ exists x, In x l /\ p x = true /\ it = f x.
Proof.
  induction l as [|x rest IH]; simpl; [tauto|].
  destruct (p x) eqn:Hp; simpl.
  - intros [<-|H]; [right; exists x; auto | left; auto].
  - intros [<-|H]; [left; auto|].
    destruct (IH H) as [H1|(y & Hy & Hpy & ->)]; [left; auto | right; eauto].
Qed.

Lemma update_first_none p f (l : list ItemInfo) :
  (forall x, In x l -> p x = false) -> update_first p f l = l.
Proof.
  induction l as [|x rest IH]; simpl; intros H; [reflexivity|].
  rewrite (H x (or_introl eq_refl)), IH; auto.
Qed.

Lemma length_update_first p f (l : list ItemInfo) :
  List.length (update_first p f l) = List.length l.
Proof. induction l as [|x rest IH]; simpl; [|destruct (p x); simpl]; auto. Qed.

Lemma in_updateItemForId (l : list ItemInfo) id f it :
  In it (updateItemForId l id f) ->
  In it l \/ exists x, In x l /\ itemId x = id /\ id <> 0 /\ it = f x.
Proof.
  unfold updateItemForId. destruct (id =? 0) eqn:Hid; simpl; [tauto|].
  intros H. apply in_rev in H. apply in_update_first in H.
  destruct H as [H|(x & Hx & Hp & ->)].
  - left. apply in_rev. exact H.
  - right. exists x. apply Z.eqb_eq in Hp. apply Z.eqb_neq in Hid.
    repeat split; auto. apply in_rev. exact Hx.
Qed.

Lemma length_updateItemForId (l : list ItemInfo) id f :
  List.length (updateItemForId l id f) = List.length l.
Proof.
  unfold updateItemForId. destruct (negb (id =? 0)); [|reflexivity].
  rewrite length_rev, length_update_first, length_rev. reflexivity.
Qed.

(** [getItemForId] finds an item of the store with that id, and finds
    one whenever the id is non-zero and present. *)
Lemma getItemForId_some (l : list ItemInfo) id it :
  getItemForId l id = Some it -> In it l /\ itemId it = id /\ id <> 0.
Proof.
  unfold getItemForId. destruct (id =? 0) eqn:Hid; simpl; [discriminate|].
  intros H. apply find_some in H as [Hin Heq].
  apply Z.eqb_eq in Heq. apply Z.eqb_neq in Hid.
  split; [apply in_rev; exact Hin | auto].
Qed.

Lemma getItemForId_none (l : list ItemInfo) id :
  getItemForId l id = None -> id = 0 \/ forall it, In it l -> itemId it <> id.
Proof.
  unfold getItemForId. destruct (id =? 0) eqn:Hid; simpl.
  - intros _. left. apply Z.eqb_eq. exact Hid.
  - intros H. right. intros it Hin Heq.
    assert (Hf := find_none _ _ H it (proj1 (in_rev _ _) Hin)).
    simpl in Hf. rewrite Heq, Z.eqb_refl in Hf. discriminate.
Qed.

Lemma getItemForId_zero (l : list ItemInfo) : getItemForId l 0 = None.
Proof. reflexivity. Qed.

(** ** Invariants of reachable states *)

Lemma separatorItem_ok : ItemOk separatorItem.
Proof. split; simpl; [discriminate | reflexivity]. Qed.

Lemma setSelectedId_fields x d s :
  items (setSelectedId x d s) = items s /\
  labelEditable (setSelectedId x d s) = labelEditable s /\
  noChoicesMessage (setSelectedId x d s) = noChoicesMessage s.
Proof.
  unfold setSelectedId. destruct (_ || _); [destruct d|]; simpl; auto.
Qed.

Lemma setSelectedId_ids x d s :
  currentId s = lastCurrentId s ->
  currentId (setSelectedId x d s) = lastCurrentId (setSelectedId x d s).
Proof.
  unfold setSelectedId. destruct (_ || _); [destruct d|]; simpl; auto.
Qed.

Lemma setSelectedId_inv x d s : Inv s -> Inv (setSelectedId x d s).
Proof.
  intros H. unfold Inv. rewrite (proj1 (setSelectedId_fields x d s)). exact H.
Qed.

Lemma setText_inv t d s : Inv s -> Inv (setText t d s).
Proof.
  intros Hs. unfold setText. destruct (find _ _).
  - apply setSelectedId_inv; auto.
  - destruct (negb _); [destruct d|]; exact Hs.
Qed.

Lemma addItem_inv t id s : Inv s -> Inv (addItem t id s).
Proof.
  intros H2. unfold Inv, addItem.
  destruct (negb (isEmpty t) && negb (id =? 0)) eqn:Hc; [|auto].
  apply andb_true_iff in Hc as [_ Hid]. apply negb_true_iff, Z.eqb_neq in Hid.
  assert (Hnew : ItemOk (mkItemInfo t id true false))
    by (split; simpl; [discriminate | intros _ Hz; contradiction]).
  destruct (separatorPending s); simpl; auto;
    repeat (apply Forall_app; split); auto; repeat constructor;
    auto using separatorItem_ok.
Qed.

Lemma addSectionHeading_inv t s : Inv s -> Inv (addSectionHeading t s).
Proof.
  intros H2. unfold Inv, addSectionHeading.
  destruct (isEmpty t) eqn:He; simpl; [auto|].
  assert (Hnew : ItemOk (mkItemInfo t 0 true true))
    by (split; simpl; [auto | discriminate]).
  destruct (separatorPending s); simpl; auto;
    repeat (apply Forall_app; split); auto; repeat constructor;
    auto using separatorItem_ok.
Qed.

(** Renaming or (dis)enabling keeps id and heading flag, and only ever
    touches an item with a non-zero id. *)
Lemma updateItemForId_ok (l : list ItemInfo) id f :
  (forall x, itemId (f x) = itemId x /\ isHeading (f x) = isHeading x) ->
  Forall ItemOk l -> Forall ItemOk (updateItemForId l id f).
Proof.
  intros Hf Hl. apply Forall_forall. intros it Hin.
  apply in_updateItemForId in Hin as [Hin|(x & Hx & Hxid & Hid & ->)].
  - exact (proj1 (Forall_forall _ _) Hl it Hin).
  - destruct (Hf x) as [E1 E2].
    assert (Hok := proj1 (Forall_forall _ _) Hl x Hx).
    destruct (isHeading x) eqn:Hh.
    + exfalso. apply Hid. rewrite <- Hxid. apply (proj1 Hok Hh).
    + split; rewrite E2, E1; [discriminate | intros _ Hz; congruence].
Qed.

Lemma step_inv o s : Inv s -> Inv (step o s).
Proof.
  intros Hs. destruct o; simpl.
  - apply addItem_inv; auto.
  - exact Hs.
  - apply addSectionHeading_inv; auto.
  - apply updateItemForId_ok; auto.
  - apply updateItemForId_ok; auto.
  - unfold clear.
    assert (Hc : Inv (set_separatorPending false (set_items [] s)))
      by (unfold Inv; simpl; auto).
    destruct (negb _); [apply setSelectedId_inv|]; auto.
  - apply setSelectedId_inv; auto.
  - apply setSelectedId_inv; auto.
  - apply setText_inv; auto.
  - exact Hs.
  - destruct (labelEditable s); exact Hs.
  - unfold showPopup. destruct (negb _); exact Hs.
  - unfold modalStateFinished.
    destruct (negb _); [apply setSelectedId_inv|]; exact Hs.
  - exact Hs.
  - exact Hs.
  - unfold valueChanged. destruct (negb _); [apply setSelectedId_inv|]; exact Hs.
Qed.

Lemma run_inv ops s : Inv s -> Inv (run s ops).
Proof.
  revert s. induction ops as [|o rest IH]; simpl; auto.
  intros s Hs. apply IH, step_inv, Hs.
Qed.

Lemma reachable_inv s : reachable s -> Inv s.
Proof.
  intros [ops <-]. apply run_inv. constructor.
Qed.

(** Real items of a reachable state have a non-zero id. *)
Lemma reachable_real_nonzero s it :
  reachable s -> In it (items s) -> isRealItem it = true -> itemId it <> 0.
Proof.
  intros Hr Hin Hreal Hz. assert (H2 := reachable_inv s Hr).
  destruct (proj1 (Forall_forall _ _) H2 it Hin) as [_ Hb].
  unfold isRealItem in Hreal. apply negb_true_iff, orb_false_iff in Hreal as [Hh He].
  rewrite (Hb Hh Hz) in He. discriminate.
Qed.

(** ** Selection lemmas *)

Lemma setSelectedId_post x d s :
  currentId s = lastCurrentId s ->
  currentId (setSelectedId x d s) = x /\
  labelText (setSelectedId x d s) =
    match getItemForId (items s) x with Some it => name it | None => "" end /\
  items (setSelectedId x d s) = items s.
Proof.
  intros Hids. unfold setSelectedId.
  destruct (negb (lastCurrentId s =? x) || negb (String.eqb (labelText s) _)) eqn:Hc.
  - destruct d; simpl; auto.
  - apply orb_false_iff in Hc as [Ha Hb].
    apply negb_false_iff, Z.eqb_eq in Ha. apply negb_false_iff, String.eqb_eq in Hb.
    repeat split; congruence.
Qed.

(** [getSelectedId] right after [setSelectedId x]: [x] when the lookup
    finds an item (whose name the label then shows), else 0. *)
Lemma getSelectedId_setSelectedId x d s :
  currentId s = lastCurrentId s ->
  match getItemForId (items s) x with
  | Some it => labelText (setSelectedId x d s) = name it /\
               getSelectedId (setSelectedId x d s) = x
  | None => getSelectedId (setSelectedId x d s) = 0
  end.
Proof.
  intros Hids. destruct (setSelectedId_post x d s Hids) as (Hc & Hl & Hi).
  unfold getSelectedId. rewrite Hc, Hi, Hl.
  destruct (getItemForId (items s) x) as [it|] eqn:Hg.
  - rewrite String.eqb_refl. split; auto. apply (getItemForId_some _ _ _ Hg).
  - reflexivity.
Qed.

(** The entries a valid [addItem] appends. *)
Lemma addItem_items t id s :
  t <> "" -> id <> 0 ->
  items (addItem t id s) =
    items s ++ (if separatorPending s then [separatorItem] else []) ++
    [mkItemInfo t id true false].
Proof.
  intros Ht Hid.
  assert (Hc : negb (isEmpty t) && negb (id =? 0) = true).
  { apply andb_true_iff. split; apply negb_true_iff;
      [apply isEmpty_false | apply Z.eqb_neq]; auto. }
  unfold addItem. rewrite Hc.
  destruct (separatorPending s); simpl; rewrite <- ?app_assoc; reflexivity.
Qed.

(** ** Theorems *)




(** C2 (as written) fails: once [currentId] has been set from outside,
    [setSelectedId] of the id last selected through the box, whose name
    the label still shows, does nothing, and [getSelectedId] reports on
    the outside id. *)
Lemma C2_outside_write : ~ C2_as_stated.
Proof.
  intros H.
  assert (E := H diverged_box 1 false (ex_intro _ _ eq_refl) ltac:(discriminate)
                 (ex_intro _ (mkItemInfo "a" 1 true false)
                    (conj (or_introl eq_refl) (conj eq_refl eq_refl)))).
  vm_compute in E. discriminate E.
Qed.

(** C2 (amended): when [currentId] and [lastCurrentId] agree (always,
    except after [currentId] was set from outside and before
    [valueChanged] has run), right after [setSelectedId x],
    [getSelectedId] returns [x] exactly when [x] is the (non-zero) id of
    an item of the store, whose name the label then shows; otherwise it
    returns 0.  In any state, when [lastCurrentId] is already [x] and the
    label already shows that item's name, [setSelectedId x] does nothing,
    so [getSelectedId] keeps reporting on [currentId]. *)
Theorem setSelectedId_getSelectedId (s : ComboBox) (x : Z) (d : bool) :
  (currentId s = lastCurrentId s ->
   ((x <> 0 /\ exists it, In it (items s) /\ itemId it = x) ->
      exists it, In it (items s) /\ itemId it = x /\
        labelText (setSelectedId x d s) = name it /\
        getSelectedId (setSelectedId x d s) = x) /\
   (~ (x <> 0 /\ exists it, In it (items s) /\ itemId it = x) ->
      getSelectedId (setSelectedId x d s) = 0)) /\
  (lastCurrentId s = x ->
   labelText s = match getItemForId (items s) x with
                 | Some it => name it | None => "" end ->
   setSelectedId x d s = s /\ getSelectedId (setSelectedId x d s) = getSelectedId s).
Proof.
  split.
  - intros Hids.
    assert (Hg := getSelectedId_setSelectedId x d s Hids).
    destruct (getItemForId (items s) x) as [it|] eqn:E.
    + destruct (getItemForId_some _ _ _ E) as (Hin & Hid & Hnz).
      split.
      * intros _. exists it. destruct Hg. auto.
      * intros Hn. exfalso. apply Hn. split; eauto.
    + split; [|intros _; exact Hg].
      intros [Hnz (it & Hin & Hid)].
      destruct (getItemForId_none _ _ E) as [Hz|Hall]; [contradiction|].
      exfalso. exact (Hall it Hin Hid).
  - intros H1 H2.
    assert (Hs : setSelectedId x d s = s).
    { unfold setSelectedId. rewrite <- H2, H1, Z.eqb_refl, String.eqb_refl.
      reflexivity. }
    rewrite Hs. split; reflexivity.
Qed.

Lemma setSelectedId_getSelectedId_witness :
  getSelectedId (setSelectedId 2 false example_box) = 2 /\
  getSelectedId (setSelectedId 9 false example_box) = 0 /\
  getSelectedId (setSelectedId 1 false diverged_box) = getSelectedId diverged_box.
Proof.
  split; [|split].
  - destruct (proj1 (proj1 (setSelectedId_getSelectedId example_box 2 false) eq_refl))
      as (it & _ & _ & _ & H).
    + split; [discriminate|]. exists (mkItemInfo "Green" 2 true false).
      split; [simpl; tauto | reflexivity].
    + exact H.
  - apply (proj2 (proj1 (setSelectedId_getSelectedId example_box 9 false) eq_refl)).
    intros [_ (it & Hin & Hid)]. simpl in Hin.
    destruct Hin as [<-|[<-|[<-|[<-|[]]]]]; simpl in Hid; discriminate.
  - apply (proj2 (proj2 (setSelectedId_getSelectedId diverged_box 1 false)
                   eq_refl eq_refl)).
Defined.




(** C4 (as written) fails: the release-build guard of [addItem] only
    refuses empty text and id 0, so a duplicate id is appended. *)
Lemma C4_duplicate_id_appended : ~ C4_duplicate_is_noop.
Proof.
  intros H.
  assert (E := H (run init [OpAddItem "a" 1]) "b" 1 (ex_intro _ _ eq_refl)
                 (ex_intro _ (mkItemInfo "a" 1 true false)
                    (conj (or_introl eq_refl) eq_refl))).
  discriminate E.
Qed.

(** C4 (amended): in a release build, [addItem] with empty text or id 0
    and [changeItemText] with an id no item has leave the box unchanged;
    [addItem] with a non-empty text and a non-zero id appends the item even
    when the id is already present (lookups by id then find the new one).
    Every operation is a total function of the state: nothing throws. *)
Theorem misuse_release_behaviour (s : ComboBox) (t : string) (id : Z) :
  ((t = "" \/ id = 0) -> addItem t id s = s) /\
  ((forall it, In it (items s) -> itemId it <> id) -> changeItemText id t s = s) /\
  (t <> "" -> id <> 0 ->
     items (addItem t id s) =
       items s ++ (if separatorPending s then [separatorItem] else []) ++
       [mkItemInfo t id true false] /\
     getItemForId (items (addItem t id s)) id = Some (mkItemInfo t id true false)).
Proof.
  split; [|split].
  - intros H. unfold addItem.
    destruct H as [ -> | -> ]; [reflexivity|].
    rewrite andb_false_r. reflexivity.
  - intros H. unfold changeItemText, updateItemForId.
    destruct (negb (id =? 0)); [|apply set_items_same].
    rewrite update_first_none, rev_involutive; [apply set_items_same|].
    intros x Hx. apply Z.eqb_neq. apply H. apply in_rev. exact Hx.
  - intros Ht Hid. rewrite (addItem_items t id s Ht Hid). split; [reflexivity|].
    unfold getItemForId. apply Z.eqb_neq in Hid. rewrite Hid. simpl.
    rewrite app_assoc, rev_app_distr. simpl. rewrite Z.eqb_refl. reflexivity.
Qed.

Lemma misuse_release_behaviour_witness :
  addItem "" 4 example_box = example_box /\
  changeItemText 7 "x" example_box = example_box /\
  getItemForId (items (addItem "Again" 1 example_box)) 1 =
    Some (mkItemInfo "Again" 1 true false).
Proof.
  destruct (misuse_release_behaviour example_box "" 4) as [H1 _].
  destruct (misuse_release_behaviour example_box "x" 7) as [_ [H2 _]].
  destruct (misuse_release_behaviour example_box "Again" 1) as [_ [_ H3]].
  split; [apply H1; left; reflexivity|]. split.
  - apply H2. intros it Hin. simpl in Hin.
    destruct Hin as [<-|[<-|[<-|[<-|[]]]]]; simpl; discriminate.
  - apply H3; discriminate.
Defined.

(** ** Building a store *)

Lemma realIds_addItem t id s :
  t <> "" -> id <> 0 ->
  map itemId (filter isRealItem (items (addItem t id s))) =
  map itemId (filter isRealItem (items s)) ++ [id].
Proof.
  intros Ht Hid. rewrite (addItem_items t id s Ht Hid).
  assert (Hr : isRealItem (mkItemInfo t id true false) = true).
  { unfold isRealItem. simpl. apply isEmpty_false in Ht. rewrite Ht. reflexivity. }
  rewrite !filter_app, !map_app.
  destruct (separatorPending s); simpl; rewrite Hr; reflexivity.
Qed.

Lemma realIds_addSectionHeading t s :
  map itemId (filter isRealItem (items (addSectionHeading t s))) =
  map itemId (filter isRealItem (items s)).
Proof.
  unfold addSectionHeading. destruct (negb (isEmpty t)); [|reflexivity].
  destruct (separatorPending s); simpl; rewrite !filter_app, !map_app; simpl;
    [rewrite <- app_assoc|]; rewrite ?app_nil_r; reflexivity.
Qed.

Lemma realIds_build bs s :
  Forall validAdd bs ->
  map itemId (filter isRealItem (items (run s (map buildStep bs)))) =
  map itemId (filter isRealItem (items s)) ++ addedIds bs.
Proof.
  revert s. induction bs as [|b rest IH]; intros s Hv; simpl.
  - rewrite app_nil_r. reflexivity.
  - inversion Hv as [|? ? Hb Hrest]; subst.
    rewrite (IH _ Hrest). destruct b; simpl.
    + destruct Hb. rewrite realIds_addItem, <- app_assoc; auto.
    + reflexivity.
    + rewrite realIds_addSectionHeading. reflexivity.
Qed.

Lemma getNumItems_length (l : list ItemInfo) :
  getNumItems l = Z.of_nat (List.length (filter isRealItem l)).
Proof.
  induction l as [|it rest IH]; [reflexivity|].
  cbn [getNumItems filter]. rewrite IH.
  destruct (isRealItem it); cbn [List.length]; [rewrite Nat2Z.inj_succ|]; lia.
Qed.

Lemma indexOfItemId_from_bound (l : list ItemInfo) id n :
  In id (map itemId (filter isRealItem l)) -> n <= indexOfItemId_from l id n.
Proof.
  revert n. induction l as [|it rest IH]; intros n Hin; simpl in *; [contradiction|].
  destruct (isRealItem it); simpl in Hin.
  - destruct (itemId it =? id) eqn:E; simpl; [lia|].
    destruct Hin as [Heq|Hin]; [apply Z.eqb_neq in E; contradiction|].
    specialize (IH (n + 1) Hin). lia.
  - apply IH. exact Hin.
Qed.

Lemma getItemForIndex_indexOfItemId_from (l : list ItemInfo) id n :
  In id (map itemId (filter isRealItem l)) ->
  exists it, getItemForIndex_from l (indexOfItemId_from l id n) n = Some it /\
             itemId it = id /\ isRealItem it = true.
Proof.
  revert n. induction l as [|it rest IH]; intros n Hin; simpl in *; [contradiction|].
  destruct (isRealItem it) eqn:Hr; simpl in Hin.
  - destruct (itemId it =? id) eqn:E; simpl.
    + exists it. rewrite Z.eqb_refl. apply Z.eqb_eq in E. auto.
    + destruct Hin as [Heq|Hin]; [apply Z.eqb_neq in E; contradiction|].
      assert (Hb := indexOfItemId_from_bound rest id (n + 1) Hin).
      replace (n =? indexOfItemId_from rest id (n + 1)) with false
        by (symmetry; apply Z.eqb_neq; lia).
      apply IH. exact Hin.
  - apply IH. exact Hin.
Qed.

Lemma getItemId_indexOfItemId (l : list ItemInfo) id :
  In id (map itemId (filter isRealItem l)) ->
  getItemId l (indexOfItemId l id) = id.
Proof.
  intros Hin. unfold getItemId, indexOfItemId, getItemForIndex.
  destruct (getItemForIndex_indexOfItemId_from l id 0 Hin) as (it & -> & Hid & _).
  exact Hid.
Qed.

(** C5: adding items with non-empty texts and pairwise distinct non-zero
    ids, separators and headings in between, yields exactly that many
    items, and [getItemId (indexOfItemId id) = id] for each added id. *)
Theorem build_numItems_roundtrip (bs : list BuildOp) :
  Forall validAdd bs -> NoDup (addedIds bs) ->
  getNumItems (items (run init (map buildStep bs))) =
    Z.of_nat (List.length (addedIds bs)) /\
  (forall id, In id (addedIds bs) ->
     getItemId (items (run init (map buildStep bs)))
       (indexOfItemId (items (run init (map buildStep bs))) id) = id).
Proof.
  intros Hv _. assert (E := realIds_build bs init Hv). simpl in E.
  split.
  - rewrite getNumItems_length, <- E, length_map. reflexivity.
  - intros id Hin. apply getItemId_indexOfItemId. rewrite E. exact Hin.
Qed.

Lemma build_numItems_roundtrip_witness :
  Forall validAdd example_build /\ NoDup (addedIds example_build) /\
  getNumItems (items (run init (map buildStep example_build))) = 3 /\
  getItemId (items (run init (map buildStep example_build)))
    (indexOfItemId (items (run init (map buildStep example_build))) 2) = 2.
Proof.
  assert (Hv : Forall validAdd example_build).
  { repeat constructor; discriminate. }
  assert (Hn : NoDup (addedIds example_build)).
  { simpl. repeat constructor; simpl; intuition discriminate. }
  destruct (build_numItems_roundtrip example_build Hv Hn) as [H1 H2].
  split; [exact Hv|]. split; [exact Hn|]. split.
  - rewrite H1. reflexivity.
  - apply H2. simpl. tauto.
Defined.

(** ** Pending separator *)

Lemma length_items_step o s :
  (forall t id, o <> OpAddItem t id) -> (forall h, o <> OpAddSectionHeading h) ->
  (List.length (items (step o s)) <= List.length (items s))%nat.
Proof.
  intros Ha Hh. destruct o; simpl.
  - exfalso. eapply Ha. reflexivity.
  - lia.
  - exfalso. eapply Hh. reflexivity.
  - rewrite length_updateItemForId. lia.
  - rewrite length_updateItemForId. lia.
  - unfold clear. destruct (negb _); [unfold setSelectedItemIndex;
      rewrite (proj1 (setSelectedId_fields _ _ _))|]; simpl; lia.
  - rewrite (proj1 (setSelectedId_fields _ _ _)). lia.
  - unfold setSelectedItemIndex. rewrite (proj1 (setSelectedId_fields _ _ _)). lia.
  - unfold setText. destruct (find _ _).
    + rewrite (proj1 (setSelectedId_fields _ _ _)). lia.
    + unfold triggerUnless. destruct_ifs; simpl; lia.
  - lia.
  - destruct (labelEditable s); simpl; lia.
  - unfold showPopup. destruct (negb _); simpl; lia.
  - unfold modalStateFinished. destruct (negb _);
      [rewrite (proj1 (setSelectedId_fields _ _ _))|]; simpl; lia.
  - lia.
  - lia.
  - unfold valueChanged. destruct (negb _);
      [rewrite (proj1 (setSelectedId_fields _ _ _))|]; lia.
Qed.

(** C6: [addSeparator] only sets the pending flag (when the store is not
    empty) and adds no entry; the separator entry (empty name, id 0) is
    appended by the next valid [addItem] or [addSectionHeading], right
    before the new entry; no other operation adds entries; and [clear]
    right after [addSeparator] leaves an empty store and no pending
    separator. *)
Theorem pending_separator (s : ComboBox) (d : bool) :
  items (addSeparator s) = items s /\
  separatorPending (addSeparator s) = negb (Nat.eqb (List.length (items s)) 0) /\
  items (clear d (addSeparator s)) = [] /\
  separatorPending (clear d (addSeparator s)) = false /\
  (forall t id, separatorPending s = true -> t <> "" -> id <> 0 ->
     items (addItem t id s) = items s ++ [separatorItem; mkItemInfo t id true false]) /\
  (forall h, separatorPending s = true -> h <> "" ->
     items (addSectionHeading h s) = items s ++ [separatorItem; mkItemInfo h 0 true true]) /\
  (forall o, (forall t id, o <> OpAddItem t id) ->
     (forall h, o <> OpAddSectionHeading h) ->
     (List.length (items (step o s)) <= List.length (items s))%nat).
Proof.
  split; [reflexivity|]. split.
  { unfold addSeparator. simpl. destruct (List.length (items s)); reflexivity. }
  split; [|split; [|split; [|split]]].
  - unfold clear. destruct (negb _); [unfold setSelectedItemIndex;
      rewrite (proj1 (setSelectedId_fields _ _ _))|]; reflexivity.
  - unfold clear. destruct (negb _); [|reflexivity].
    unfold setSelectedItemIndex, setSelectedId. destruct (_ || _); [destruct d|]; reflexivity.
  - intros t id Hp Ht Hid.
    rewrite (addItem_items t id s Ht Hid), Hp. reflexivity.
  - intros h Hp Hh. unfold addSectionHeading.
    apply isEmpty_false in Hh. rewrite Hh, Hp. simpl. rewrite <- app_assoc. reflexivity.
  - intros o. apply length_items_step.
Qed.

Lemma pending_separator_witness :
  items (addItem "Blue" 3 (addSeparator (run init [OpAddItem "Red" 1]))) =
    [mkItemInfo "Red" 1 true false; separatorItem; mkItemInfo "Blue" 3 true false] /\
  items (clear false (addSeparator example_box)) = [] /\
  (List.length (items (step OpAddSeparator example_box)) <=
     List.length (items example_box))%nat.
Proof.
  destruct (pending_separator (addSeparator (run init [OpAddItem "Red" 1])) false)
    as (_ & _ & _ & _ & H1 & _).
  destruct (pending_separator example_box false) as (_ & _ & H2 & _ & _ & _ & H3).
  split; [apply H1; [reflexivity | discriminate | discriminate]|].
  split; [exact H2|].
  apply H3; intros; discriminate.
Defined.

(** ** Selected index *)

Lemma indexOfItemId_from_notin (l : list ItemInfo) id n :
  ~ In id (map itemId (filter isRealItem l)) -> indexOfItemId_from l id n = -1.
Proof.
  revert n. induction l as [|it rest IH]; intros n Hn; simpl in *; [reflexivity|].
  destruct (isRealItem it); simpl in Hn |- *.
  - destruct (itemId it =? id) eqn:E.
    + exfalso. apply Hn. left. apply Z.eqb_eq. exact E.
    + apply IH. tauto.
  - apply IH. exact Hn.
Qed.

Lemma indexOfItemId_cases (l : list ItemInfo) id :
  indexOfItemId l id = -1 \/
  (0 <= indexOfItemId l id /\ getItemId l (indexOfItemId l id) = id).
Proof.
  destruct (in_dec Z.eq_dec id (map itemId (filter isRealItem l))) as [Hin|Hn].
  - right. split; [apply (indexOfItemId_from_bound l id 0 Hin)|].
    apply getItemId_indexOfItemId. exact Hin.
  - left. apply indexOfItemId_from_notin. exact Hn.
Qed.

Lemma setText_nomatch s t d :
  (forall it, In it (items s) -> isRealItem it = true -> name it <> t) ->
  items (setText t d s) = items s /\ currentId (setText t d s) = 0 /\
  labelText (setText t d s) = t.
Proof.
  intros Hall. unfold setText.
  destruct (find (fun it => isRealItem it && String.eqb (name it) t) (rev (items s)))
    as [it|] eqn:Hf.
  - exfalso. apply find_some in Hf as [Hin Hp]. apply in_rev in Hin.
    apply andb_true_iff in Hp as [Hreal Hname]. apply String.eqb_eq in Hname.
    exact (Hall it Hin Hreal Hname).
  - simpl. destruct (String.eqb (labelText s) t) eqn:E; simpl.
    + apply String.eqb_eq in E. auto.
    + destruct d; simpl; auto.
Qed.

(** C7 (as written) fails: item 1 is selected with label "a", then item 2
    is renamed "a" and item 1 "z"; the item at index 1 shows the label's
    text but the reported index is -1, as it is looked up from
    [currentId]. *)
Lemma C7_index_follows_currentId : ~ C7_as_stated.
Proof.
  intros H.
  assert (E := H renamed_box 1 (mkItemInfo "a" 2 true false)
                 (ex_intro _ _ eq_refl) eq_refl eq_refl).
  vm_compute in E. discriminate E.
Qed.

Lemma getItemForIndex_from_below (l : list ItemInfo) k n :
  k < n -> getItemForIndex_from l k n = None.
Proof.
  revert n. induction l as [|it rest IH]; intros n Hk; simpl; [reflexivity|].
  destruct (isRealItem it); [|apply IH; lia].
  destruct (Z.eqb_spec n k); [lia|]. apply IH. lia.
Qed.

(** C7 (amended): [getSelectedItemIndex] is computed on each call from
    [currentId]: it is [indexOfItemId currentId] (the position among the
    real items of the first real item with that id) when that item's name
    equals the label's text, and -1 otherwise: when no real item has the
    current id, or the label's text differs from that item's name, e.g.
    after [setText] with a free text. *)
Theorem getSelectedItemIndex_spec (s : ComboBox) :
  reachable s ->
  (forall it, getItemForIndex (items s) (indexOfItemId (items s) (currentId s)) = Some it ->
     name it = getText s ->
     getSelectedItemIndex s = indexOfItemId (items s) (currentId s) /\
     0 <= getSelectedItemIndex s /\
     itemId it = currentId s /\ isRealItem it = true) /\
  (getSelectedItemIndex s = -1 \/
   (0 <= getSelectedItemIndex s /\
    getSelectedItemIndex s = indexOfItemId (items s) (currentId s) /\
    getItemId (items s) (getSelectedItemIndex s) = currentId s /\
    getItemText (items s) (getSelectedItemIndex s) = getText s)) /\
  (getItemText (items s) (indexOfItemId (items s) (currentId s)) <> getText s ->
     getSelectedItemIndex s = -1) /\
  (indexOfItemId (items s) (currentId s) = -1 -> getSelectedItemIndex s = -1) /\
  (forall t d, (forall it, In it (items s) -> isRealItem it = true -> name it <> t) ->
     getSelectedItemIndex (setText t d s) = -1).
Proof.
  intros Hr. split.
  { intros it Hit Hname.
    destruct (in_dec Z.eq_dec (currentId s) (map itemId (filter isRealItem (items s))))
      as [Hin|Hn].
    - destruct (getItemForIndex_indexOfItemId_from (items s) (currentId s) 0 Hin)
        as (it' & Hit' & Hid & Hre).
      unfold indexOfItemId, getItemForIndex in Hit. rewrite Hit' in Hit.
      inversion Hit; subst it'.
      assert (Hb := indexOfItemId_from_bound (items s) (currentId s) 0 Hin).
      unfold getSelectedItemIndex, getItemText, getItemForIndex, getText in *.
      unfold indexOfItemId in *. rewrite Hit', Hname, String.eqb_refl. simpl.
      repeat split; auto.
    - exfalso. unfold indexOfItemId, getItemForIndex in Hit.
      rewrite (indexOfItemId_from_notin _ _ 0 Hn) in Hit.
      rewrite getItemForIndex_from_below in Hit; [discriminate | lia]. }
  unfold getSelectedItemIndex, getText.
  split; [|split; [|split]].
  - destruct (String.eqb (labelText s) _) eqn:E; simpl; [|left; reflexivity].
    apply String.eqb_eq in E.
    destruct (indexOfItemId_cases (items s) (currentId s)) as [->|[H1 H2]];
      [left; reflexivity|].
    right. auto.
  - intros Hne. destruct (String.eqb (labelText s) _) eqn:E; [|reflexivity].
    apply String.eqb_eq in E. congruence.
  - intros ->. destruct (negb _); reflexivity.
  - intros t d Hall. destruct (setText_nomatch s t d Hall) as (Hi & Hc & _).
    rewrite Hi, Hc.
    unfold indexOfItemId. rewrite (indexOfItemId_from_notin (items s) 0 0).
    + destruct (negb _); reflexivity.
    + intros Hin. apply in_map_iff in Hin as (it & Hid & Hin).
      apply filter_In in Hin as [Hin Hreal].
      exact (reachable_real_nonzero s it Hr Hin Hreal Hid).
Qed.

Lemma getSelectedItemIndex_spec_witness :
  reachable example_box /\
  getSelectedItemIndex (setText "unrelated" false example_box) = -1 /\
  getSelectedItemIndex (setSelectedId 2 false example_box) = 1.
Proof.
  assert (Hr : reachable example_box) by (eexists; reflexivity).
  split; [exact Hr|].
  destruct (getSelectedItemIndex_spec example_box Hr) as (_ & _ & _ & _ & H).
  split.
  - apply H. intros it Hin _. simpl in Hin.
    destruct Hin as [<-|[<-|[<-|[<-|[]]]]]; simpl; discriminate.
  - assert (Hr2 : reachable (setSelectedId 2 false example_box))
      by (exists [OpAddItem "Red" 1; OpAddItem "Green" 2; OpAddSeparator;
                  OpAddItem "Blue" 3; OpSetSelectedId 2 false]; reflexivity).
    rewrite (proj1 (proj1 (getSelectedItemIndex_spec _ Hr2)
                      (mkItemInfo "Green" 2 true false) eq_refl eq_refl)).
    reflexivity.
Defined.

(** ** Popup menu *)




Lemma showPopup_when_active s :
  menuActive s = true -> showPopup s = (None, s).
Proof. unfold showPopup. intros ->. reflexivity. Qed.

(** ** Renaming an item to the empty text *)

(** C9: [changeItemText] accepts the empty text (unlike [addItem] and
    [addSectionHeading]), and an empty-named item is a separator: the
    store can then begin with a separator, or hold two adjacent ones. *)
Theorem changeItemText_empty_separators :
  reachable leading_sep_box /\
  map isSeparator (items leading_sep_box) = [true] /\
  reachable adjacent_sep_box /\
  map isSeparator (items adjacent_sep_box) = [false; true; true].
Proof.
  split; [eexists; reflexivity|]. split; [reflexivity|].
  split; [eexists; reflexivity | reflexivity].
Qed.

(** C10: after item 1 is renamed to the empty text, [setSelectedId 1]
    makes [getSelectedId] return 1 although no real item has id 1. *)
Theorem getSelectedId_non_real :
  reachable renamed_selected_box /\
  getSelectedId renamed_selected_box = 1 /\
  filter isRealItem (items renamed_selected_box) = [].
Proof.
  split; [eexists; reflexivity|]. split; reflexivity.
Qed.

(** ** Further properties: lookups *)

Lemma getNumItems_app (l1 l2 : list ItemInfo) :
  getNumItems (l1 ++ l2) = getNumItems l1 + getNumItems l2.
Proof. induction l1 as [|it rest IH]; simpl; [reflexivity|]. rewrite IH. lia. Qed.

Lemma getNumItems_nonneg (l : list ItemInfo) : 0 <= getNumItems l.
Proof. induction l as [|it rest IH]; simpl; [lia|]. destruct (isRealItem it); lia. Qed.

Lemma getItemForIndex_from_app (l1 l2 : list ItemInfo) k n :
  getItemForIndex_from (l1 ++ l2) k n =
  match getItemForIndex_from l1 k n with
  | Some it => Some it
  | None => getItemForIndex_from l2 k (n + getNumItems l1)
  end.
Proof.
  revert n. induction l1 as [|it rest IH]; intros n; simpl.
  - rewrite Z.add_0_r. reflexivity.
  - destruct (isRealItem it).
    + destruct (n =? k); [reflexivity|]. rewrite IH, Z.add_assoc. reflexivity.
    + rewrite IH, Z.add_0_l. reflexivity.
Qed.

Lemma getItemForIndex_from_range (l : list ItemInfo) k n :
  (n <= k < n + getNumItems l ->
     exists it, getItemForIndex_from l k n = Some it /\ isRealItem it = true /\ In it l) /\
  (k < n \/ n + getNumItems l <= k -> getItemForIndex_from l k n = None).
Proof.
  revert n. induction l as [|it rest IH]; intros n; cbn [getItemForIndex_from getNumItems].
  - split; [intros; lia | reflexivity].
  - pose proof (getNumItems_nonneg rest).
    destruct (isRealItem it) eqn:Hr; cbv beta iota.
    + destruct (Z.eqb_spec n k) as [<-|Hne].
      * split; [intros _; exists it; split; [reflexivity | split; [exact Hr | left; reflexivity]] | intros; lia].
      * destruct (IH (n + 1)) as [H1 H2]. split.
        -- intros Hk. destruct H1 as (x & Hx & Hxr & Hin); [lia|].
           exists x. split; [exact Hx | split; [exact Hxr | right; exact Hin]].
        -- intros Hk. apply H2. lia.
    + destruct (IH n) as [H1 H2]. split.
      * intros Hk. destruct H1 as (x & Hx & Hxr & Hin); [lia|].
        exists x. split; [exact Hx | split; [exact Hxr | right; exact Hin]].
      * intros Hk. apply H2. lia.
Qed.

Lemma getItemForIndex_from_some (l : list ItemInfo) k n it :
  getItemForIndex_from l k n = Some it -> In it l /\ isRealItem it = true.
Proof.
  revert n. induction l as [|x rest IH]; intros n; simpl; [discriminate|].
  destruct (isRealItem x) eqn:Hr; [destruct (n =? k)|].
  - intros H. inversion H; subst. auto.
  - intros H. destruct (IH _ H). auto.
  - intros H. destruct (IH _ H). auto.
Qed.

(** Items appended that are not real do not move any index. *)
Lemma getItemForIndex_app_nonreal (l extra : list ItemInfo) k :
  (forall x, In x extra -> isRealItem x = false) ->
  getItemForIndex (l ++ extra) k = getItemForIndex l k.
Proof.
  intros Hx. unfold getItemForIndex. rewrite getItemForIndex_from_app.
  destruct (getItemForIndex_from l k 0); [reflexivity|].
  generalize (0 + getNumItems l). induction extra as [|x rest IH]; intros m; simpl;
    [reflexivity|].
  rewrite (Hx x (or_introl eq_refl)). apply IH. intros y Hy. apply Hx. right. exact Hy.
Qed.

Lemma getNumItems_app_nonreal (l extra : list ItemInfo) :
  (forall x, In x extra -> isRealItem x = false) ->
  getNumItems (l ++ extra) = getNumItems l.
Proof.
  intros Hx. rewrite getNumItems_app.
  enough (getNumItems extra = 0) by lia.
  induction extra as [|x rest IH]; simpl; [reflexivity|].
  rewrite (Hx x (or_introl eq_refl)), IH; [reflexivity|].
  intros y Hy. apply Hx. right. exact Hy.
Qed.

Lemma indexOfItemId_from_range (l : list ItemInfo) id n :
  indexOfItemId_from l id n = -1 \/
  n <= indexOfItemId_from l id n < n + getNumItems l.
Proof.
  revert n. induction l as [|it rest IH]; intros n; simpl; [left; reflexivity|].
  destruct (isRealItem it).
  - destruct (itemId it =? id).
    + right. pose proof (getNumItems_nonneg rest). lia.
    + destruct (IH (n + 1)) as [H|H]; [left; exact H | right; lia].
  - destruct (IH n) as [H|H]; [left; exact H | right; lia].
Qed.








Lemma find_app_item (p : ItemInfo -> bool) (l r : list ItemInfo) :
  find p (l ++ r) = match find p l with Some x => Some x | None => find p r end.
Proof.
  induction l as [|x rest IH]; simpl; [reflexivity|]. destruct (p x); auto.
Qed.

Lemma find_none_item (p : ItemInfo -> bool) (l : list ItemInfo) :
  (forall x, In x l -> p x = false) -> find p l = None.
Proof.
  induction l as [|x rest IH]; simpl; intros H; [reflexivity|].
  rewrite (H x (or_introl eq_refl)). apply IH. intros y Hy. apply H. right. exact Hy.
Qed.

(** [getItemForId] on a store with entries appended after it: entries
    that do not carry the id are skipped. *)
Lemma getItemForId_app_skip (l extra : list ItemInfo) id :
  (forall x, In x extra -> itemId x <> id) ->
  getItemForId (l ++ extra) id = getItemForId l id.
Proof.
  intros Hx. unfold getItemForId. destruct (negb (id =? 0)); [|reflexivity].
  rewrite rev_app_distr, find_app_item.
  replace (find (fun it => itemId it =? id) (rev extra)) with (@None ItemInfo);
    [reflexivity|].
  symmetry. apply find_none_item. intros x Hin. apply Z.eqb_neq, Hx, in_rev, Hin.
Qed.

(** ** Extra theorems: the item store *)

(** [getItemForId] returns the last entry carrying the id: an entry with
    a non-zero id followed only by entries with other ids is the one found,
    whatever comes before it. *)
Theorem getItemForId_last_wins (l1 l2 : list ItemInfo) (it : ItemInfo) :
  itemId it <> 0 -> (forall x, In x l2 -> itemId x <> itemId it) ->
  getItemForId (l1 ++ it :: l2) (itemId it) = Some it.
Proof.
  intros Hnz Hx.
  replace (l1 ++ it :: l2) with ((l1 ++ [it]) ++ l2) by (rewrite <- app_assoc; reflexivity).
  rewrite getItemForId_app_skip by exact Hx.
  unfold getItemForId. apply Z.eqb_neq in Hnz. rewrite Hnz. simpl.
  rewrite rev_app_distr. simpl. rewrite Z.eqb_refl. reflexivity.
Qed.

Lemma getItemForId_last_wins_witness :
  getItemForId ([mkItemInfo "a" 1 true false] ++ mkItemInfo "b" 1 true false ::
                [mkItemInfo "c" 2 true false]) 1 = Some (mkItemInfo "b" 1 true false).
Proof.
  apply (getItemForId_last_wins [mkItemInfo "a" 1 true false]
           [mkItemInfo "c" 2 true false] (mkItemInfo "b" 1 true false)).
  - discriminate.
  - simpl. intros x [<-|[]]. simpl. discriminate.
Defined.

(** [getItemText] and [getItemId] of an index out of [0, getNumItems)
    are the empty string and 0; inside it they are the name and id of a
    real item of the store. *)
Theorem getItem_by_index_range (l : list ItemInfo) (k : Z) :
  ((k < 0 \/ getNumItems l <= k) -> getItemText l k = "" /\ getItemId l k = 0) /\
  (0 <= k < getNumItems l ->
     exists it, In it l /\ isRealItem it = true /\
       getItemText l k = name it /\ getItemId l k = itemId it).
Proof.
  destruct (getItemForIndex_from_range l k 0) as [H1 H2].
  unfold getItemText, getItemId, getItemForIndex. split.
  - intros Hk. rewrite H2 by lia. split; reflexivity.
  - intros Hk. destruct H1 as (it & -> & Hr & Hin); [lia|]. eauto.
Qed.

Lemma getItem_by_index_range_witness :
  getItemText (items example_box) 3 = "" /\ getItemId (items example_box) (-1) = 0.
Proof.
  split.
  - apply (proj1 (getItem_by_index_range (items example_box) 3)). right. reflexivity.
  - apply (proj1 (getItem_by_index_range (items example_box) (-1))). left. lia.
Defined.

(** A valid [addItem] adds one item, at index [getNumItems ()] (the end),
    and leaves every existing index with its item. *)
Theorem addItem_appends_at_end (s : ComboBox) (t : string) (id : Z) :
  t <> "" -> id <> 0 ->
  getNumItems (items (addItem t id s)) = getNumItems (items s) + 1 /\
  getItemText (items (addItem t id s)) (getNumItems (items s)) = t /\
  getItemId (items (addItem t id s)) (getNumItems (items s)) = id /\
  (forall k, 0 <= k < getNumItems (items s) ->
     getItemForIndex (items (addItem t id s)) k = getItemForIndex (items s) k).
Proof.
  intros Ht Hid. rewrite (addItem_items t id s Ht Hid).
  assert (Hr : isRealItem (mkItemInfo t id true false) = true).
  { unfold isRealItem. simpl. apply isEmpty_false in Ht. rewrite Ht. reflexivity. }
  assert (Hend : getItemForIndex
             (items s ++ (if separatorPending s then [separatorItem] else []) ++
              [mkItemInfo t id true false]) (getNumItems (items s)) =
           Some (mkItemInfo t id true false)).
  { unfold getItemForIndex. rewrite getItemForIndex_from_app.
    rewrite (proj2 (getItemForIndex_from_range (items s) _ 0)) by lia.
    destruct (separatorPending s); simpl; rewrite Hr, Z.eqb_refl; reflexivity. }
  split; [|split; [|split]].
  - rewrite !getNumItems_app.
    destruct (separatorPending s); simpl; rewrite Hr; lia.
  - unfold getItemText. rewrite Hend. reflexivity.
  - unfold getItemId. rewrite Hend. reflexivity.
  - intros k Hk. unfold getItemForIndex. rewrite getItemForIndex_from_app.
    destruct (proj1 (getItemForIndex_from_range (items s) k 0)) as (x & -> & _); [lia|].
    reflexivity.
Qed.

Lemma addItem_appends_at_end_witness :
  getItemId (items (addItem "Cyan" 9 example_box)) 3 = 9.
Proof.
  destruct (addItem_appends_at_end example_box "Cyan" 9) as (_ & _ & H & _);
    [discriminate | discriminate | exact H].
Defined.

(** [addSectionHeading] and [addSeparator] add no item: the count and
    every index lookup are unchanged. *)
Theorem heading_separator_keep_indices (s : ComboBox) (h : string) (k : Z) :
  getNumItems (items (addSectionHeading h s)) = getNumItems (items s) /\
  getItemForIndex (items (addSectionHeading h s)) k = getItemForIndex (items s) k /\
  getNumItems (items (addSeparator s)) = getNumItems (items s) /\
  getItemForIndex (items (addSeparator s)) k = getItemForIndex (items s) k.
Proof.
  split; [|split]; [| |split; reflexivity];
    unfold addSectionHeading; destruct (negb (isEmpty h)); try reflexivity;
    destruct (separatorPending s); simpl;
    rewrite ?getNumItems_app_nonreal, ?getItemForIndex_app_nonreal; try reflexivity;
    simpl; intros x Hx; repeat destruct Hx as [<-|Hx]; try contradiction; reflexivity.
Qed.

(** Entries appended with ids other than [currentId] do not change what
    [getSelectedId] reports. *)
Lemma getSelectedId_app_skip (s : ComboBox) (extra : list ItemInfo) :
  (forall x, In x extra -> itemId x <> currentId s) ->
  getSelectedId (set_items (items s ++ extra) s) = getSelectedId s.
Proof.
  intros Hx. unfold getSelectedId. simpl. rewrite getItemForId_app_skip by exact Hx.
  reflexivity.
Qed.

(** Adding a separator, a heading, or an item whose id is not the current
    one keeps the selection [getSelectedId] reports. *)
Theorem additions_keep_selection (s : ComboBox) (t h : string) (id : Z) :
  id <> currentId s ->
  getSelectedId (addItem t id s) = getSelectedId s /\
  getSelectedId (addSectionHeading h s) = getSelectedId s /\
  getSelectedId (addSeparator s) = getSelectedId s.
Proof.
  intros Hid.
  assert (Hz : currentId s = 0 -> forall l, getSelectedId (set_items l s) = getSelectedId s)
    by (intros H0 l; unfold getSelectedId; simpl; rewrite H0; reflexivity).
  split; [|split; [|reflexivity]].
  - unfold addItem. destruct (_ && _); [|reflexivity].
    destruct (Z.eqb_spec (currentId s) 0) as [H0|Hnz].
    + destruct (separatorPending s); apply Hz; exact H0.
    + destruct (separatorPending s); simpl.
      * unfold getSelectedId; simpl.
        rewrite !getItemForId_app_skip; try reflexivity;
          simpl; intros x [<-|[]]; simpl; congruence.
      * apply getSelectedId_app_skip. simpl. intros x [<-|[]]; simpl; congruence.
  - unfold addSectionHeading. destruct (negb _); [|reflexivity].
    destruct (Z.eqb_spec (currentId s) 0) as [H0|Hnz].
    + destruct (separatorPending s); apply Hz; exact H0.
    + destruct (separatorPending s); simpl.
      * unfold getSelectedId; simpl.
        rewrite !getItemForId_app_skip; try reflexivity;
          simpl; intros x [<-|[]]; simpl; congruence.
      * apply getSelectedId_app_skip. simpl. intros x [<-|[]]; simpl; congruence.
Qed.

Lemma additions_keep_selection_witness :
  getSelectedId (addItem "Cyan" 9 (setSelectedId 2 false example_box)) = 2.
Proof.
  rewrite (proj1 (additions_keep_selection (setSelectedId 2 false example_box)
                    "Cyan" "Cool" 9 ltac:(vm_compute; discriminate))).
  reflexivity.
Defined.







(** ** Further properties: selection *)

Lemma setSelectedId_last_label x d s :
  lastCurrentId (setSelectedId x d s) = x /\
  labelText (setSelectedId x d s) =
    match getItemForId (items s) x with Some it => name it | None => "" end.
Proof.
  unfold setSelectedId.
  destruct (negb (lastCurrentId s =? x) || negb (String.eqb (labelText s) _)) eqn:Hc.
  - destruct d; simpl; auto.
  - apply orb_false_iff in Hc as [Ha Hb].
    apply negb_false_iff, Z.eqb_eq in Ha. apply negb_false_iff, String.eqb_eq in Hb.
    auto.
Qed.

Lemma setSelectedId_twice x d1 d2 s :
  setSelectedId x d2 (setSelectedId x d1 s) = setSelectedId x d1 s.
Proof.
  destruct (setSelectedId_last_label x d1 s) as [Hl Ht].
  assert (Hi := proj1 (setSelectedId_fields x d1 s)).
  unfold setSelectedId at 1. rewrite Hl, Hi, Z.eqb_refl, Ht, String.eqb_refl.
  reflexivity.
Qed.

Lemma set_ids_zero (s : ComboBox) :
  currentId s = 0 -> lastCurrentId s = 0 -> set_ids 0 0 s = s.
Proof. destruct s; simpl; intros -> ->; reflexivity. Qed.

Lemma setText_free_fixed t d (s : ComboBox) :
  find (fun it => isRealItem it && String.eqb (name it) t) (rev (items s)) = None ->
  labelText s = t -> currentId s = 0 -> lastCurrentId s = 0 ->
  setText t d s = s.
Proof.
  intros Hf Hl Hc Hlc. unfold setText. rewrite Hf.
  rewrite (set_ids_zero s Hc Hlc). rewrite Hl, String.eqb_refl. reflexivity.
Qed.

Lemma setText_twice t d1 d2 s :
  setText t d2 (setText t d1 s) = setText t d1 s.
Proof.
  destruct (find (fun it => isRealItem it && String.eqb (name it) t) (rev (items s)))
    as [it|] eqn:Hf.
  - unfold setText. rewrite Hf, (proj1 (setSelectedId_fields _ _ _)), Hf.
    apply setSelectedId_twice.
  - apply setText_free_fixed; unfold setText; rewrite Hf; simpl;
      destruct (String.eqb (labelText s) t) eqn:E; simpl;
      try (destruct d1; simpl); auto;
      apply String.eqb_eq in E; exact E.
Qed.

(** [setSelectedId x] twice is [setSelectedId x] once: the second call
    finds nothing to change and sends no notification. *)
Theorem setSelectedId_idempotent (s : ComboBox) (x : Z) (d1 d2 : bool) :
  setSelectedId x d2 (setSelectedId x d1 s) = setSelectedId x d1 s.
Proof. apply setSelectedId_twice. Qed.

(** [setText t] twice is [setText t] once, for a matching name and for
    free text alike. *)
Theorem setText_idempotent (s : ComboBox) (t : string) (d1 d2 : bool) :
  setText t d2 (setText t d1 s) = setText t d1 s.
Proof. apply setText_twice. Qed.

(** [setSelectedId]'s notification: with [dontSendChangeMessage] it never
    schedules one; without it, it schedules one when the id differs from
    [lastCurrentId] or the label's text from the item's name, and
    otherwise it changes nothing at all. *)
Theorem setSelectedId_notification (s : ComboBox) (x : Z) :
  updatePending (setSelectedId x true s) = updatePending s /\
  ((lastCurrentId s <> x \/
    labelText s <> match getItemForId (items s) x with
                   | Some it => name it | None => "" end) ->
     updatePending (setSelectedId x false s) = true) /\
  (lastCurrentId s = x ->
   labelText s = match getItemForId (items s) x with
                 | Some it => name it | None => "" end ->
   forall d, setSelectedId x d s = s).
Proof.
  split; [|split].
  - unfold setSelectedId. destruct (_ || _); reflexivity.
  - intros H. unfold setSelectedId.
    replace (negb (lastCurrentId s =? x) || negb (String.eqb (labelText s) _)) with true;
      [reflexivity|].
    symmetry. apply orb_true_iff. destruct H as [H|H]; [left|right];
      apply negb_true_iff; [apply Z.eqb_neq | apply String.eqb_neq]; exact H.
  - intros H1 H2 d. unfold setSelectedId. rewrite <- H2, H1, Z.eqb_refl, String.eqb_refl.
    reflexivity.
Qed.

Lemma setSelectedId_notification_witness :
  updatePending (setSelectedId 2 false example_box) = true /\
  setSelectedId 2 true (setSelectedId 2 false example_box) =
    setSelectedId 2 false example_box.
Proof.
  split.
  - apply (proj1 (proj2 (setSelectedId_notification example_box 2))).
    left. discriminate.
  - apply (proj2 (proj2 (setSelectedId_notification _ 2))); reflexivity.
Defined.

(** [valueChanged] resynchronises: afterwards [lastCurrentId] equals
    [currentId]; when they differed the label shows the name of the item
    with that id (empty if none) and a notification is scheduled; when
    they agreed nothing changes. *)
Theorem valueChanged_resync (s : ComboBox) :
  lastCurrentId (valueChanged s) = currentId s /\
  currentId (valueChanged s) = currentId s /\
  (lastCurrentId s <> currentId s ->
     labelText (valueChanged s) =
       match getItemForId (items s) (currentId s) with
       | Some it => name it | None => "" end /\
     updatePending (valueChanged s) = true) /\
  (lastCurrentId s = currentId s -> valueChanged s = s).
Proof.
  unfold valueChanged.
  destruct (Z.eqb_spec (lastCurrentId s) (currentId s)) as [E|E]; simpl.
  - split; [exact E|]. split; [reflexivity|]. split; [contradiction|reflexivity].
  - unfold setSelectedId.
    apply Z.eqb_neq in E. rewrite E. simpl.
    split; [reflexivity|]. split; [reflexivity|].
    split; [|intros H; apply Z.eqb_neq in E; contradiction].
    intros _. split; reflexivity.
Qed.

Lemma valueChanged_resync_witness :
  labelText (valueChanged (set_ids 3 0 example_box)) = "Blue".
Proof.
  apply (proj1 (proj1 (proj2 (proj2 (valueChanged_resync (set_ids 3 0 example_box))))
                  ltac:(discriminate))).
Defined.

(** ** Further properties: indices under unique ids *)

Lemma UniqueIds_cons x rest :
  UniqueIds (x :: rest) ->
  UniqueIds rest /\
  (itemId x <> 0 -> forall y, In y rest -> itemId y <> itemId x).
Proof.
  unfold UniqueIds. simpl. destruct (itemId x =? 0) eqn:Hz; simpl.
  - intros H. split; [exact H|]. intros Hn. apply Z.eqb_neq in Hn. congruence.
  - intros H. apply NoDup_cons_iff in H as [Hn Hd]. split; [exact Hd|].
    intros _ y Hy Heq. apply Hn. apply in_map_iff. exists y. split; [exact Heq|].
    apply filter_In. split; [exact Hy|]. rewrite Heq, Hz. reflexivity.
Qed.

Lemma UniqueIds_inj (l : list ItemInfo) a b :
  UniqueIds l -> In a l -> In b l -> itemId a <> 0 -> itemId a = itemId b -> a = b.
Proof.
  induction l as [|x rest IH]; simpl; [contradiction|].
  intros Hu Ha Hb Hnz Heq. destruct (UniqueIds_cons _ _ Hu) as [Hu' Hx].
  destruct Ha as [<-|Ha]; destruct Hb as [<-|Hb]; auto.
  - exfalso. apply (Hx Hnz b Hb). auto.
  - exfalso. apply (Hx ltac:(congruence) a Ha). auto.
Qed.

Lemma unique_getItemForId (l : list ItemInfo) it :
  UniqueIds l -> In it l -> itemId it <> 0 -> getItemForId l (itemId it) = Some it.
Proof.
  intros Hu Hin Hnz. destruct (getItemForId l (itemId it)) as [it'|] eqn:E.
  - apply getItemForId_some in E as (Hin' & Heq & _).
    f_equal. apply (UniqueIds_inj l); auto. congruence.
  - apply getItemForId_none in E as [E|E]; [contradiction|].
    exfalso. exact (E it Hin eq_refl).
Qed.

Lemma unique_indexOfItemId (l : list ItemInfo) k n it :
  UniqueIds l -> getItemForIndex_from l k n = Some it -> itemId it <> 0 ->
  indexOfItemId_from l (itemId it) n = k.
Proof.
  revert n. induction l as [|x rest IH]; intros n Hu H Hnz; simpl in *; [discriminate|].
  destruct (UniqueIds_cons _ _ Hu) as [Hu' Hx].
  destruct (isRealItem x) eqn:Hr.
  - destruct (Z.eqb_spec n k) as [<-|Hnk].
    + inversion H; subst. rewrite Z.eqb_refl. reflexivity.
    + destruct (Z.eqb_spec (itemId x) (itemId it)) as [E|E].
      * exfalso. destruct (getItemForIndex_from_some _ _ _ _ H) as [Hin _].
        apply (Hx ltac:(congruence) it Hin). auto.
      * apply IH; auto.
  - apply IH; auto.
Qed.

Lemma select_index_roundtrip s k d :
  reachable s -> currentId s = lastCurrentId s ->
  UniqueIds (items s) -> 0 <= k < getNumItems (items s) ->
  getSelectedItemIndex (setSelectedItemIndex k d s) = k /\
  getSelectedId (setSelectedItemIndex k d s) = getItemId (items s) k.
Proof.
  intros Hr Hc Hu Hk.
  destruct (proj1 (getItemForIndex_from_range (items s) k 0) ltac:(lia))
    as (it & Hit & Hreal & Hin).
  assert (Hnz := reachable_real_nonzero s it Hr Hin Hreal).
  assert (Hid : getItemId (items s) k = itemId it)
    by (unfold getItemId, getItemForIndex; rewrite Hit; reflexivity).
  assert (Hg := unique_getItemForId _ _ Hu Hin Hnz).
  unfold setSelectedItemIndex. rewrite Hid.
  destruct (setSelectedId_post (itemId it) d s Hc) as (Hcur & Hlab & Hitems).
  rewrite Hg in Hlab.
  split.
  - unfold getSelectedItemIndex. rewrite Hcur, Hitems, Hlab. unfold indexOfItemId.
    rewrite (unique_indexOfItemId _ k 0 it Hu Hit Hnz).
    unfold getItemText, getItemForIndex. rewrite Hit, String.eqb_refl. reflexivity.
  - unfold getSelectedId. rewrite Hcur, Hitems, Hg, Hlab, String.eqb_refl. reflexivity.
Qed.

Lemma getSelectedItemIndex_range s :
  getSelectedItemIndex s = -1 \/ 0 <= getSelectedItemIndex s < getNumItems (items s).
Proof.
  unfold getSelectedItemIndex. destruct (negb _); [left; reflexivity|].
  exact (indexOfItemId_from_range (items s) (currentId s) 0).
Qed.

Lemma example_box_reachable : reachable example_box.
Proof. exists [OpAddItem "Red" 1; OpAddItem "Green" 2; OpAddSeparator; OpAddItem "Blue" 3].
       reflexivity. Qed.

Lemma example_box_unique : UniqueIds (items example_box).
Proof.
  unfold UniqueIds. vm_compute.
  repeat constructor; simpl; intuition discriminate.
Qed.

(** With pairwise distinct non-zero ids, and [currentId] and
    [lastCurrentId] in agreement, selecting by index and reading the index
    back is a round trip, and the selected id is the id at that index. *)
Theorem setSelectedItemIndex_roundtrip (s : ComboBox) (k : Z) (d : bool) :
  reachable s -> currentId s = lastCurrentId s ->
  UniqueIds (items s) -> 0 <= k < getNumItems (items s) ->
  getSelectedItemIndex (setSelectedItemIndex k d s) = k /\
  getSelectedId (setSelectedItemIndex k d s) = getItemId (items s) k.
Proof. apply select_index_roundtrip. Qed.

Lemma setSelectedItemIndex_roundtrip_witness :
  getSelectedItemIndex (setSelectedItemIndex 2 false example_box) = 2.
Proof.
  apply (proj1 (setSelectedItemIndex_roundtrip example_box 2 false
                  example_box_reachable eq_refl example_box_unique
                  ltac:(vm_compute; split; [discriminate | reflexivity]))).
Defined.

(** The arrow keys, on a box with at least one item and distinct ids:
    down/right moves the selected index to [min (index + 1) (n - 1)],
    up/left to [max 0 (index - 1)] (from "nothing selected", index -1,
    both land on index 0); the key is reported as used.  This needs
    [currentId] and [lastCurrentId] to agree. *)
Theorem keyPressed_arrows (s : ComboBox) :
  reachable s -> currentId s = lastCurrentId s ->
  UniqueIds (items s) -> 1 <= getNumItems (items s) ->
  (forall key, key = KeyDown \/ key = KeyRight ->
     fst (keyPressed key s) = true /\
     getSelectedItemIndex (snd (keyPressed key s)) =
       Z.min (getSelectedItemIndex s + 1) (getNumItems (items s) - 1)) /\
  (forall key, key = KeyUp \/ key = KeyLeft ->
     fst (keyPressed key s) = true /\
     getSelectedItemIndex (snd (keyPressed key s)) =
       Z.max 0 (getSelectedItemIndex s - 1)).
Proof.
  intros Hr Hc Hu Hn.
  assert (Hi := getSelectedItemIndex_range s).
  split; intros key Hk.
  - assert (Hsel := select_index_roundtrip s
                      (Z.min (getSelectedItemIndex s + 1) (getNumItems (items s) - 1))
                      false Hr Hc Hu ltac:(lia)).
    destruct Hk as [ -> | -> ]; split; try reflexivity; apply (proj1 Hsel).
  - assert (Hsel := select_index_roundtrip s
                      (Z.max 0 (getSelectedItemIndex s - 1)) false Hr Hc Hu ltac:(lia)).
    destruct Hk as [ -> | -> ]; split; try reflexivity; apply (proj1 Hsel).
Qed.

Lemma keyPressed_arrows_witness :
  getSelectedItemIndex (snd (keyPressed KeyDown example_box)) = 0.
Proof.
  apply (proj2 (proj1 (keyPressed_arrows example_box example_box_reachable
                          eq_refl example_box_unique ltac:(vm_compute; discriminate))
                 KeyDown (or_introl eq_refl))).
Defined.

Lemma getItemId_empty (l : list ItemInfo) k : getNumItems l = 0 -> getItemId l k = 0.
Proof.
  intros H. unfold getItemId, getItemForIndex.
  rewrite (proj2 (getItemForIndex_from_range l k 0) ltac:(lia)). reflexivity.
Qed.

(** The arrow keys on a box without items select id 0: when [currentId]
    and [lastCurrentId] agree, the text is cleared and nothing is
    selected; the key is still reported as used. *)
Theorem keyPressed_arrows_empty (s : ComboBox) (key : KeyCode) :
  currentId s = lastCurrentId s -> getNumItems (items s) = 0 ->
  key <> KeyReturn -> key <> KeyOther ->
  fst (keyPressed key s) = true /\
  getText (snd (keyPressed key s)) = "" /\
  currentId (snd (keyPressed key s)) = 0 /\
  getSelectedId (snd (keyPressed key s)) = 0.
Proof.
  intros Hc Hn Hk1 Hk2.
  assert (H0 : forall k, getText (setSelectedItemIndex k false s) = "" /\
                         currentId (setSelectedItemIndex k false s) = 0 /\
                         getSelectedId (setSelectedItemIndex k false s) = 0).
  { intros k. unfold setSelectedItemIndex. rewrite (getItemId_empty _ k Hn).
    destruct (setSelectedId_post 0 false s Hc) as (A & B & C).
    rewrite getItemForId_zero in B.
    unfold getText, getSelectedId. rewrite A, B, C, getItemForId_zero. auto. }
  destruct key; try congruence; unfold keyPressed; cbn [fst snd];
    split; [reflexivity | apply H0 | reflexivity | apply H0 | reflexivity | apply H0
           | reflexivity | apply H0].
Qed.

Lemma keyPressed_arrows_empty_witness :
  getText (snd (keyPressed KeyUp (setText "typed" false init))) = "".
Proof.
  apply (proj1 (proj2 (keyPressed_arrows_empty (setText "typed" false init) KeyUp
    eq_refl eq_refl ltac:(discriminate) ltac:(discriminate)))).
Defined.

(** ** Further properties: the popup menu *)




(** [showPopup] is guarded by [menuActive]: calling it again while the
    menu is up shows no second menu and changes nothing. *)
Theorem showPopup_reentrant (s : ComboBox) :
  fst (showPopup (snd (showPopup s))) = None /\
  snd (showPopup (snd (showPopup s))) = snd (showPopup s).
Proof.
  destruct (menuActive s) eqn:E; unfold showPopup; rewrite E; simpl;
    [rewrite E|]; split; reflexivity.
Qed.

Lemma tickedCount_app (a b : list MenuEntry) :
  tickedCount (a ++ b) = (tickedCount a + tickedCount b)%nat.
Proof.
  induction a as [|e a IH]; [reflexivity|].
  destruct e as [| t | i t en [|]]; simpl; rewrite IH; reflexivity.
Qed.

Lemma tickedCount_menuEntries sel (l : list ItemInfo) :
  tickedCount (menuEntries sel l) =
  List.length (filter (fun it => isRealItem it && Z.eqb (itemId it) sel) l).
Proof.
  induction l as [|it rest IH]; [reflexivity|].
  simpl. unfold isRealItem, isSeparator.
  destruct (isEmpty (name it)); destruct (isHeading it); simpl; try exact IH.
  destruct (itemId it =? sel); simpl; rewrite IH; reflexivity.
Qed.

Lemma ticked_unique (l : list ItemInfo) sel :
  UniqueIds l -> sel <> 0 ->
  (List.length (filter (fun it => isRealItem it && Z.eqb (itemId it) sel) l) <= 1)%nat.
Proof.
  induction l as [|x rest IH]; intros Hu Hs; simpl; [lia|].
  destruct (UniqueIds_cons _ _ Hu) as [Hu' Hx].
  destruct (isRealItem x && Z.eqb (itemId x) sel) eqn:E; [|apply IH; auto].
  apply andb_true_iff in E as [_ E]. apply Z.eqb_eq in E.
  destruct (filter (fun it => isRealItem it && Z.eqb (itemId it) sel) rest) as [|y ys] eqn:F;
    simpl; [lia|].
  exfalso. assert (Hy : In y (y :: ys)) by (left; reflexivity).
  rewrite <- F in Hy. apply filter_In in Hy as [Hy Hf].
  apply andb_true_iff in Hf as [_ Hf]. apply Z.eqb_eq in Hf.
  apply (Hx ltac:(congruence) y Hy). congruence.
Qed.

Lemma ticked_zero s :
  reachable s ->
  List.length (filter (fun it => isRealItem it && Z.eqb (itemId it) 0) (items s)) = 0%nat.
Proof.
  intros Hr.
  destruct (filter (fun it => isRealItem it && Z.eqb (itemId it) 0) (items s)) as [|y ys] eqn:F;
    [reflexivity|].
  exfalso. assert (Hy : In y (y :: ys)) by (left; reflexivity).
  rewrite <- F in Hy. apply filter_In in Hy as [Hy Hf].
  apply andb_true_iff in Hf as [Hre Hf]. apply Z.eqb_eq in Hf.
  exact (reachable_real_nonzero s y Hr Hy Hre Hf).
Qed.

(** The menu [showPopup] builds ticks at most one entry when the ids are
    distinct, and none when [getSelectedId] is 0. *)
Theorem showPopup_ticks (s s' : ComboBox) (menu : list MenuEntry) :
  reachable s -> UniqueIds (items s) -> showPopup s = (Some menu, s') ->
  (tickedCount menu <= 1)%nat /\ (getSelectedId s = 0 -> tickedCount menu = 0%nat).
Proof.
  intros Hr Hu H. unfold showPopup in H.
  destruct (menuActive s); simpl in H; [discriminate|].
  inversion H; subst; clear H.
  rewrite tickedCount_app, tickedCount_menuEntries.
  replace (tickedCount (if Nat.eqb (List.length (items s)) 0
                        then [MenuItem 1 (noChoicesMessage s) false false] else []))
    with 0%nat by (destruct (Nat.eqb _ _); reflexivity).
  split.
  - destruct (Z.eq_dec (getSelectedId s) 0) as [E|E].
    + rewrite E, (ticked_zero s Hr). lia.
    + assert (T := ticked_unique (items s) (getSelectedId s) Hu E). lia.
  - intros E. rewrite E, (ticked_zero s Hr). reflexivity.
Qed.

Lemma showPopup_ticks_witness :
  (tickedCount (match fst (showPopup (setSelectedId 2 false example_box)) with
                | Some m => m | None => [] end) <= 1)%nat.
Proof.
  assert (Hr : reachable (setSelectedId 2 false example_box))
    by (exists [OpAddItem "Red" 1; OpAddItem "Green" 2; OpAddSeparator;
                OpAddItem "Blue" 3; OpSetSelectedId 2 false]; reflexivity).
  apply (proj1 (showPopup_ticks (setSelectedId 2 false example_box)
                  (snd (showPopup (setSelectedId 2 false example_box))) _ Hr
                  ltac:(unfold UniqueIds; vm_compute;
                        repeat constructor; simpl; intuition discriminate)
                  ltac:(reflexivity))).
Defined.

(** With no items, the popup consists of the single disabled placeholder
    entry carrying the message last set by [setTextWhenNoChoicesAvailable]. *)
Theorem noChoices_popup (s : ComboBox) (m : string) :
  items s = [] -> menuActive s = false ->
  fst (showPopup (setTextWhenNoChoicesAvailable m s)) =
    Some [MenuItem 1 m false false].
Proof.
  intros Hi Hm. unfold showPopup, setTextWhenNoChoicesAvailable. simpl.
  rewrite Hi, Hm. reflexivity.
Qed.

Lemma noChoices_popup_witness :
  fst (showPopup (setTextWhenNoChoicesAvailable "(empty)" init)) =
    Some [MenuItem 1 "(empty)" false false].
Proof. apply (noChoices_popup init "(empty)" eq_refl eq_refl). Defined.
